(** * Output Operations on DStreams: the notebook and its embedded SaveTweets example

    The repository consists of one Jupyter notebook
    (2_basics/.ipynb_checkpoints/Output Operations on DStreams-checkpoint.ipynb).
    The development below has three layers:

    - the notebook itself, as the JSON document it is stored as, with the
      accessors of the notebook format;
    - the Scala program SaveTweets quoted in the fourth cell, as a shallow
      embedding in a monad of driver computations, with the streaming
      framework it calls taken as an interface;
    - the framework's output operations as the table of the second cell
      documents them. *)

From Stdlib Require Import DecimalString.
From Stdlib Require DecimalZ DecimalPos.
From stdpp Require Import base numbers strings list gmap.

Set Warnings "-register-all".

Local Open Scope string_scope.
Local Open Scope Z_scope.
Local Open Scope list_scope.

(** ** JSON documents *)

(** A value of the notebook file.  Objects keep their fields in file order. *)
Inductive json : Type :=
| JNull
| JBool (b : bool)
| JNum (n : Z)
| JStr (s : string)
| JArr (items : list json)
| JObj (fields : list (string * json)).

(** The value stored under [key] in an association list of fields. *)
Fixpoint assoc (key : string) (fields : list (string * json)) : option json :=
  match fields with
  | [] => None
  | (k, v) :: rest => if String.eqb k key then Some v else assoc key rest
  end.

(** [j.key], for an object [j]. *)
Definition field (key : string) (j : json) : option json :=
  match j with
  | JObj fields => assoc key fields
  | _ => None
  end.

Definition as_string (j : json) : option string :=
  match j with JStr s => Some s | _ => None end.

(** ** Characters the notebook text needs *)

(** The double quote, written in the JSON file as backslash-quote. *)
Definition dq : string := String (Ascii.ascii_of_nat 34) EmptyString.

(** The line feed, written in the JSON file as backslash-n. *)
Definition nl : string := String (Ascii.ascii_of_nat 10) EmptyString.

(** U+2019 (right single quotation mark), as its three UTF-8 bytes. *)
Definition rsquo : string :=
  String (Ascii.ascii_of_nat 226) (String (Ascii.ascii_of_nat 128) (String (Ascii.ascii_of_nat 153) EmptyString)).

(** A source line that ends in a line feed. *)
Definition line (s : string) : string := s +:+ nl.

(** ** The notebook, cell by cell *)

Definition cell0_source : list string := [
  "# Output Operations on DStreams"
].

Definition cell1_source : list string := [
  line ("Output operations allow DStream" +:+ rsquo +:+ "s data to be pushed out to external systems like a database or a file systems. Since the output operations actually allow the transformed data to be consumed by external systems, they trigger the actual execution of all the DStream transformations (similar to actions for RDDs). Currently, the following output operations are defined:");
  line "";
  line "| Output Operation        | Meaning           |";
  line "|-------------:|:------------- |";
  line "| **pprint**()      | Prints the first ten elements of every batch of data in a DStream on the driver node running the streaming application. This is useful for development and debugging. |";
  line ("| **saveAsTextFiles**(prefix, [suffix])     | Save this DStream's contents as text files. The file name at each batch interval is generated based on prefix and suffix: " +:+ dq +:+ "prefix-TIME_IN_MS[.suffix]" +:+ dq +:+ ". |");
  line ("| **saveAsObjectFiles**(prefix, [suffix]) | Save this DStream's contents as SequenceFiles of serialized Java objects. The file name at each batch interval is generated based on prefix and suffix: " +:+ dq +:+ "prefix-TIME_IN_MS[.suffix]" +:+ dq +:+ ". This is not available in the Python API. |");
  line ("| **saveAsHadoopFiles**(prefix, [suffix])      | Save this DStream's contents as Hadoop files. The file name at each batch interval is generated based on prefix and suffix: " +:+ dq +:+ "prefix-TIME_IN_MS[.suffix]" +:+ dq +:+ ". This is not available in the Python API. |");
  line "| **foreachRDD**(func) | The most generic output operator that applies a function, func, to each RDD generated from the stream. This function should push the data in each RDD to an external system, such as saving the RDD to files, or writing it over the network to a database. Note that the function func is executed in the driver process running the streaming application, and will usually have RDD actions in it that will force the computation of the streaming RDDs. |";
  line ""
].

Definition cell2_source : list string := [
  line "Different output operation";
  line "* Print";
  line "* saveAsTextFiles";
  line "* saveAsObjectFiles (not available in Python)";
  line "* saveAsHadoopFiles (not available in Python)";
  line "* foreachRDD";
  line "";
  line "DEMO: Demo how to save tweets to files";
  line "* Example: https://drive.google.com/open?id=0Bym8DZ5hyGifaXgwWFQxdVQ4UzA";
  line "* use foreachRDD and saveAsTextFiles"
].

Definition cell3_source : list string := [
  line "Scala Example";
  line "```scala";
  line "package com.sundogsoftware.sparkstreaming";
  line "";
  line "import org.apache.spark._";
  line "import org.apache.spark.SparkContext._";
  line "import org.apache.spark.streaming._";
  line "import org.apache.spark.streaming.twitter._";
  line "import org.apache.spark.streaming.StreamingContext._";
  line "import Utilities._";
  line "";
  line "/** Listens to a stream of tweets and saves them to disk. */";
  line "object SaveTweets {";
  line "  ";
  line "  /** Our main function where the action happens */";
  line "  def main(args: Array[String]) {";
  line "";
  line "    // Configure Twitter credentials using twitter.txt";
  line "    setupTwitter()";
  line "    ";
  line ("    // Set up a Spark streaming context named " +:+ dq +:+ "SaveTweets" +:+ dq +:+ " that runs locally using");
  line "    // all CPU cores and one-second batches of data";
  line ("    val ssc = new StreamingContext(" +:+ dq +:+ "local[*]" +:+ dq +:+ ", " +:+ dq +:+ "SaveTweets" +:+ dq +:+ ", Seconds(1))");
  line "    ";
  line "    // Get rid of log spam (should be called after the context is set up)";
  line "    setupLogging()";
  line "";
  line "    // Create a DStream from Twitter using our streaming context";
  line "    val tweets = TwitterUtils.createStream(ssc, None)";
  line "    ";
  line "    // Now extract the text of each status update into RDD's using map()";
  line "    val statuses = tweets.map(status => status.getText())";
  line "    ";
  line "    // Here's one way to just dump every partition of every stream to individual files:";
  line ("    //statuses.saveAsTextFiles(" +:+ dq +:+ "Tweets" +:+ dq +:+ ", " +:+ dq +:+ "txt" +:+ dq +:+ ")");
  line "    ";
  line "    // But let's do it the hard way to get a bit more control.";
  line "    ";
  line "    // Keep count of how many Tweets we've received so we can stop automatically";
  line "    // (and not fill up your disk!)";
  line "    var totalTweets:Long = 0";
  line "        ";
  line "    statuses.foreachRDD((rdd, time) => {";
  line "      // Don't bother with empty batches";
  line "      if (rdd.count() > 0) {";
  line "        // Combine each partition's results into a single RDD:";
  line "        val repartitionedRDD = rdd.repartition(1).cache()";
  line "        // And print out a directory with the results.";
  line ("        repartitionedRDD.saveAsTextFile(" +:+ dq +:+ "Tweets_" +:+ dq +:+ " + time.milliseconds.toString)");
  line "        // Stop once we've collected 1000 tweets.";
  line "        totalTweets += repartitionedRDD.count()";
  line ("        println(" +:+ dq +:+ "Tweet count: " +:+ dq +:+ " + totalTweets)");
  line "        if (totalTweets > 1000) {";
  line "          System.exit(0)";
  line "        }";
  line "      }";
  line "    })";
  line "    ";
  line "    // You can also write results into a database of your choosing, but we'll do that later.";
  line "    ";
  line "    // Set a checkpoint directory, and kick it all off";
  line ("    ssc.checkpoint(" +:+ dq +:+ "C:/checkpoint/" +:+ dq +:+ ")");
  line "    ssc.start()";
  line "    ssc.awaitTermination()";
  line "  }  ";
  line "}";
  line "```"
].

Definition cell4_source : list string := [
  line "### Demo: How to save tweets to files";
  "use foreachRDD and saveAsTextFiles"
].

Definition cell5_source : list string := [
].

Definition cell6_source : list string := [
  line "## References";
  line "1. https://drive.google.com/open?id=0Bym8DZ5hyGifaXgwWFQxdVQ4UzA";
  "2. https://spark.apache.org/docs/latest/streaming-programming-guide.html#output-operations-on-dstreams"
].

Definition cell7_source : list string := [
  " "
].

Definition markdown_cell (src : list string) : json :=
  JObj [("cell_type", JStr "markdown");
        ("metadata", JObj []);
        ("source", JArr (JStr <$> src))].

Definition cell0 : json := markdown_cell cell0_source.
Definition cell1 : json := markdown_cell cell1_source.
Definition cell2 : json := markdown_cell cell2_source.
Definition cell3 : json := markdown_cell cell3_source.
Definition cell4 : json := markdown_cell cell4_source.

Definition cell5 : json :=
  JObj [("cell_type", JStr "code");
        ("execution_count", JNull);
        ("metadata", JObj [("collapsed", JBool true)]);
        ("outputs", JArr []);
        ("source", JArr (JStr <$> cell5_source))].

Definition cell6 : json := markdown_cell cell6_source.
Definition cell7 : json := markdown_cell cell7_source.

Definition notebook_metadata : json :=
  JObj [("kernelspec",
         JObj [("display_name", JStr "Python 3");
               ("language", JStr "python");
               ("name", JStr "python3")]);
        ("language_info",
         JObj [("codemirror_mode", JObj [("name", JStr "ipython"); ("version", JNum 3)]);
               ("file_extension", JStr ".py");
               ("mimetype", JStr "text/x-python");
               ("name", JStr "python");
               ("nbconvert_exporter", JStr "python");
               ("pygments_lexer", JStr "ipython3");
               ("version", JStr "3.6.1")])].

Definition notebook : json :=
  JObj [("cells", JArr [cell0; cell1; cell2; cell3; cell4; cell5; cell6; cell7]);
        ("metadata", notebook_metadata);
        ("nbformat", JNum 4);
        ("nbformat_minor", JNum 2)].

(** ** Accessors of the notebook format *)

Definition cells (nb : json) : list json :=
  match field "cells" nb with
  | Some (JArr items) => items
  | _ => []
  end.

Definition cell_type (c : json) : option string :=
  match field "cell_type" c with
  | Some (JStr s) => Some s
  | _ => None
  end.

(** The lines of a cell; [None] when the field is missing or is not a list
    of strings. *)
Definition source (c : json) : option (list string) :=
  match field "source" c with
  | Some (JArr items) => mapM (M := option) as_string items
  | _ => None
  end.

Definition outputs (c : json) : option (list json) :=
  match field "outputs" c with
  | Some (JArr items) => Some items
  | _ => None
  end.

Definition execution_count (c : json) : option json :=
  field "execution_count" c.

Definition is_markdown (c : json) : bool :=
  bool_decide (cell_type c = Some "markdown").

Definition is_code (c : json) : bool :=
  bool_decide (cell_type c = Some "code").

Definition code_cells (nb : json) : list json := filter (λ c, is_code c = true) (cells nb).

Definition markdown_cells (nb : json) : list json := filter (λ c, is_markdown c = true) (cells nb).

(** The whole text of a cell, its lines joined. *)
Definition cell_text (c : json) : string :=
  fold_right String.append "" (default [] (source c)).

(** ** Text search *)

(** [contains needle hay]: [needle] occurs in [hay] as a substring. *)
Fixpoint contains (needle hay : string) : bool :=
  String.prefix needle hay ||
  match hay with
  | EmptyString => false
  | String _ rest => contains needle rest
  end.

(** ** Code fragments of the markdown cells *)

(** A fenced block of a markdown cell: the text after the opening fence
    (the language tag, with its line end) and the lines between the fences. *)
Record fragment : Type := Fragment { lang : string; body : list string }.

Definition is_fence (l : string) : bool := String.prefix "```" l.

(** Scans the lines of one cell.  [open] is [Some (tag, seen)] inside a block,
    with the lines seen so far in reverse.  A block that is still open at the
    end of the cell runs to the end, as in CommonMark. *)
Fixpoint fenced (open : option (string * list string)) (lines : list string) : list fragment :=
  match lines, open with
  | [], None => []
  | [], Some (tag, seen) => [Fragment tag (rev seen)]
  | l :: rest, None =>
      if is_fence l then fenced (Some (String.substring 3 (String.length l - 3) l, [])) rest
      else fenced None rest
  | l :: rest, Some (tag, seen) =>
      if is_fence l then Fragment tag (rev seen) :: fenced None rest
      else fenced (Some (tag, l :: seen)) rest
  end.

Definition fragments (c : json) : list fragment :=
  if is_markdown c then fenced None (default [] (source c)) else [].

Definition code_fragments (nb : json) : list fragment :=
  concat (fragments <$> cells nb).

Definition fragment_text (f : fragment) : string :=
  fold_right String.append "" (body f).

(** Constructs of Scala (and of Python, the notebook's kernel language) that
    handle or signal an error. *)
Definition error_handling_words : list string :=
  ["try"; "catch"; "finally"; "throw"; "Try"; "Either"; "Failure";
   "recover"; "except"; "raise"; "assert"; "require"].

(** ** Scala's Long *)

Module Long.

Definition MaxValue : Z := 2 ^ 63 - 1.
Definition MinValue : Z := - 2 ^ 63.

(** The 64-bit two's complement value of an integer. *)
Definition wrap (z : Z) : Z := (z + 2 ^ 63) `mod` 2 ^ 64 - 2 ^ 63.

(** [a + b] on Long. *)
Definition add (a b : Z) : Z := wrap (a + b).

(** [a.toString], the decimal numeral. *)
Definition toString (a : Z) : string := NilZero.string_of_int (Z.to_int a).

End Long.

(** ** The streaming framework, as the example uses it *)

(** [org.apache.spark.streaming.Time]. *)
Record Time : Type := mkTime { milliseconds : Z }.

(** What the example needs of an RDD of strings.  The framework is not part
    of the repository, so its operations are the fields of an interface:
    transformations ([repartition], [cache]) are functions on RDDs, and
    actions ([count], [take], [saveAsTextFile]) are jobs that read or change
    the world outside the driver and answer [None] when the job raises an
    exception.  [records] is the content of an RDD, partition by partition. *)
Class Framework : Type := {
  RDD : Type;
  World : Type;
  records : RDD → list string;
  repartition : positive → RDD → RDD;
  cache : RDD → RDD;
  countJob : RDD → World → option Z;
  takeJob : RDD → nat → World → option (list string);
  saveJob : RDD → string → World → option World
}.

(** What the framework's documentation promises of these operations:
    repartitioning and caching keep the records, a count that succeeds is the
    number of records (a Long), and a take that succeeds gives the first
    records. *)
Class FrameworkLaws (F : Framework) : Prop := {
  records_repartition : ∀ n r, records (repartition n r) ≡ₚ records r;
  records_cache : ∀ r, records (cache r) = records r;
  countJob_records : ∀ r w n,
    countJob r w = Some n → n = Z.of_nat (length (records r)) ∧ n ≤ Long.MaxValue;
  takeJob_records : ∀ r k w xs,
    takeJob r k w = Some xs → xs = take k (records r)
}.

(** How a driver computation ends. *)
Inductive Completion (A : Type) : Type :=
| Normal (a : A)       (* it returned [a] *)
| Exited (status : Z)  (* System.exit(status) ended the process *)
| Thrown.              (* an exception left it, uncaught *)

Arguments Normal {A} a.
Arguments Exited {A} status.
Arguments Thrown {A}.

Section Driver.

Context `{F : Framework}.

(** The driver process: the mutable variables of the program, what it has
    printed, and the world its jobs act on. *)
Record Driver (V : Type) : Type := mkDriver {
  vars : V;
  stdout : list string;
  world : World
}.

Global Arguments mkDriver {V} vars stdout world.
Global Arguments vars {V} d.
Global Arguments stdout {V} d.
Global Arguments world {V} d.

(** Computations of the driver. *)
Definition M (V A : Type) : Type := Driver V → Completion A * Driver V.

Global Instance M_ret {V} : MRet (M V) := λ A a d, (Normal a, d).

Global Instance M_bind {V} : MBind (M V) := λ A B f m d,
  match m d with
  | (Normal a, d') => f a d'
  | (Exited status, d') => (Exited status, d')
  | (Thrown, d') => (Thrown, d')
  end.

Definition get {V} : M V V := λ d, (Normal (vars d), d).

Definition put {V} (v : V) : M V unit :=
  λ d, (Normal (), mkDriver v (stdout d) (world d)).

(** [println(s)] *)
Definition println {V} (s : string) : M V unit :=
  λ d, (Normal (), mkDriver (vars d) (stdout d ++ [s]) (world d)).

(** [System.exit(status)] *)
Definition System_exit {V A} (status : Z) : M V A :=
  λ d, (Exited status, d).

(** [rdd.count()] *)
Definition count {V} (rdd : RDD) : M V Z :=
  λ d, match countJob rdd (world d) with
       | Some n => (Normal n, d)
       | None => (Thrown, d)
       end.

(** [rdd.take(num)] *)
Definition takeRecords {V} (rdd : RDD) (num : nat) : M V (list string) :=
  λ d, match takeJob rdd num (world d) with
       | Some xs => (Normal xs, d)
       | None => (Thrown, d)
       end.

(** [rdd.saveAsTextFile(path)] *)
Definition saveAsTextFile {V} (rdd : RDD) (path : string) : M V unit :=
  λ d, match saveJob rdd path (world d) with
       | Some w => (Normal (), mkDriver (vars d) (stdout d) w)
       | None => (Thrown, d)
       end.

(** A DStream, as the batches it generates: the batch time and the RDD. *)
Definition DStream : Type := list (Time * RDD).

(** Modelled from the spec: the framework's [foreachRDD] is not implemented
    in the repository; the notebook's table documents it as the operator
    that applies a function, func, to each RDD generated from the stream,
    func being executed in the driver process.  One call of [func] per
    batch, in the driver monad; an exit or an exception ends the run. *)
Fixpoint foreachRDD {V} (func : RDD → Time → M V unit) (stream : DStream) : M V unit :=
  match stream with
  | [] => mret ()
  | (time, rdd) :: rest => func rdd time;; foreachRDD func rest
  end.

(** *** SaveTweets *)

(** [var totalTweets:Long = 0] *)
Record SaveTweetsVars : Type := mkVars { totalTweets : Z }.

(** The directory the callback saves a batch to. *)
Definition batchDir (time : Time) : string :=
  "Tweets_" +:+ Long.toString (milliseconds time).

(** The function [(rdd, time) => { ... }] given to [statuses.foreachRDD]. *)
Definition callback (rdd : RDD) (time : Time) : M SaveTweetsVars unit :=
  n ← count rdd;
  if bool_decide (n > 0) then
    let repartitionedRDD := cache (repartition 1 rdd) in
    saveAsTextFile repartitionedRDD ("Tweets_" +:+ Long.toString (milliseconds time));;
    v ← get;
    c ← count repartitionedRDD;
    put (mkVars (Long.add (totalTweets v) c));;
    v ← get;
    println ("Tweet count: " +:+ Long.toString (totalTweets v));;
    v ← get;
    if bool_decide (totalTweets v > 1000) then System_exit 0 else mret ()
  else mret ().

(** A batch small enough that its size, added to a total of at most 1000,
    is still a Long: fewer than 2^63 - 1000 records. *)
Definition fits (rdd : RDD) : Prop :=
  Z.of_nat (length (records rdd)) ≤ Long.MaxValue - 1000.

(** The driver when [main] reaches [statuses.foreachRDD]. *)
Definition initial (w : World) : Driver SaveTweetsVars :=
  mkDriver (mkVars 0) [] w.

(** [main] from the declaration of [totalTweets] on: the callback runs on
    every batch of [statuses] once the context is started.  The set-up
    before it (credentials, logging, the context and the stream of tweets)
    and the checkpoint directory do not touch the variables of the
    callback. *)
Definition main (statuses : DStream) (w : World) : Completion unit * Driver SaveTweetsVars :=
  foreachRDD callback statuses (initial w).

(** *** The other output operations of the table *)

Fixpoint printAll {V} (xs : list string) : M V unit :=
  match xs with
  | [] => mret ()
  | x :: rest => println x;; printAll rest
  end.

(** Modelled from the spec: the framework's [pprint] is not implemented in
    the repository; the notebook's table documents it as printing the first
    ten elements of every batch of data in a DStream on the driver node. *)
Definition pprint {V} (stream : DStream) : M V unit :=
  foreachRDD (λ rdd time, xs ← takeRecords rdd 10; printAll xs) stream.

(** Modelled from the spec: the file name the table gives for each batch
    interval, prefix-TIME_IN_MS[.suffix]. *)
Definition rddToFileName (prefix : string) (suffix : option string) (time : Time) : string :=
  prefix +:+ "-" +:+ Long.toString (milliseconds time) +:+
  match suffix with
  | Some ext => "." +:+ ext
  | None => ""
  end.

(** Modelled from the spec: the framework's [saveAsTextFiles] is not
    implemented in the repository; the notebook's table documents it as
    saving the DStream's contents as text files, under the name above at
    each batch interval. *)
Definition saveAsTextFiles {V} (prefix : string) (suffix : option string)
    (stream : DStream) : M V unit :=
  foreachRDD (λ rdd time, saveAsTextFile rdd (rddToFileName prefix suffix time)) stream.

(** A function for [foreachRDD] that only notes the batches it is given. *)
Definition note : RDD → Time → M (list (Time * RDD)) unit :=
  λ rdd time, seen ← get; put (seen ++ [(time, rdd)]).

(** *** What a run of the callback amounts to *)

(** The number of records of a batch. *)
Definition size (rdd : RDD) : Z := Z.of_nat (length (records rdd)).

(** The number of records of all the batches of a stream. *)
Definition collected (stream : DStream) : Z :=
  foldr (λ b total, size b.2 + total) 0 stream.

(** The lines a run over [stream] prints when it starts with [total] tweets:
    one for each non-empty batch, with the total so far. *)
Fixpoint reports (total : Z) (stream : DStream) : list string :=
  match stream with
  | [] => []
  | (time, rdd) :: rest =>
      if bool_decide (0 < size rdd) then
        ("Tweet count: " +:+ Long.toString (total + size rdd)) ::
        reports (total + size rdd) rest
      else reports total rest
  end.

(** The saves a run over [stream] makes: each non-empty batch, as one
    cached partition, under its directory. *)
Definition savedBy (stream : DStream) (w : World) : option World :=
  foldl (λ ow b,
           if bool_decide (0 < size b.2)
           then ow ≫= saveJob (cache (repartition 1 b.2)) (batchDir b.1)
           else ow)
        (Some w) stream.

End Driver.

(** ** A framework on lists *)

(** One instance of the interface, to run the definitions on: an RDD is the
    list of its partitions, the world is a file system from directory names
    to the partitions written there, and a job raises when a count does not
    fit a Long or when the directory to write exists. *)
Module ListFramework.

Definition push (x : string) (part : list string) : list string := part ++ [x].

(** Deals [xs] round robin over the partitions [parts], from position [i]. *)
Fixpoint deal (i : nat) (xs : list string) (parts : list (list string)) : list (list string) :=
  match xs with
  | [] => parts
  | x :: rest => deal (S i) rest (alter (push x) (i `mod` length parts)%nat parts)
  end.

Definition roundRobin (n : positive) (r : list (list string)) : list (list string) :=
  deal 0 (concat r) (replicate (Pos.to_nat n) []).

Definition countList (r : list (list string)) (w : gmap string (list (list string))) : option Z :=
  let n := Z.of_nat (length (concat r)) in
  if bool_decide (n ≤ Long.MaxValue) then Some n else None.

Definition takeList (r : list (list string)) (k : nat)
    (w : gmap string (list (list string))) : option (list string) :=
  Some (take k (concat r)).

Definition saveDir (r : list (list string)) (path : string)
    (w : gmap string (list (list string))) : option (gmap string (list (list string))) :=
  match w !! path with
  | Some _ => None
  | None => Some (<[path := r]> w)
  end.

Definition framework : Framework := {|
  RDD := list (list string);
  World := gmap string (list (list string));
  records := λ r, concat r;
  repartition := roundRobin;
  cache := id;
  countJob := countList;
  takeJob := takeList;
  saveJob := saveDir
|}.

(** A batch of [n] tweets in [k] partitions of equal size. *)
Definition tweets (k n : nat) : list (list string) := replicate k (replicate n "tweet").

End ListFramework.

(** * Properties *)

(** ** The notebook *)

Lemma append_cons (x : Ascii.ascii) (a b : string) :
  String x a +:+ b = String x (a +:+ b).
Proof. reflexivity. Qed.

Lemma prefix_spec (a b : string) :
  String.prefix a b = true ↔ ∃ c, b = a +:+ c.
Proof.
  revert b. induction a as [|x a IH]; intros [|y b]; simpl.
  - split; [intros _; by exists "" | done].
  - split; [intros _; by exists (String y b) | done].
  - split; [done | intros [c Hc]; discriminate Hc].
  - destruct (Ascii.ascii_dec x y) as [->|Hxy].
    + rewrite IH. split; intros [c Hc]; exists c; rewrite append_cons in *; congruence.
    + split; [done | intros [c Hc]; rewrite append_cons in Hc; congruence].
Qed.

(** [contains] decides the occurrence of a substring. *)
Lemma contains_spec (needle hay : string) :
  contains needle hay = true ↔ ∃ a b, hay = a +:+ needle +:+ b.
Proof.
  induction hay as [|x hay IH]; cbn [contains].
  - rewrite orb_false_r, prefix_spec. split.
    + intros [c Hc]. by exists "", c.
    + intros [a [b Hab]]. destruct a; [by exists b | discriminate Hab].
  - rewrite orb_true_iff, prefix_spec, IH. split.
    + intros [[c Hc] | [a [b Hab]]].
      * by exists "", c.
      * exists (String x a), b. by rewrite append_cons, Hab.
    + intros [a [b Hab]]. destruct a as [|y a].
      * left. by exists b.
      * right. exists a, b. rewrite append_cons in Hab. congruence.
Qed.

(** C1: every cell of the notebook is a markdown cell except exactly one
    code cell, and the source of that code cell is empty. *)
Theorem notebook_one_empty_code_cell :
  ∃ before c after,
    cells notebook = before ++ c :: after ∧
    Forall (λ m, cell_type m = Some "markdown") (before ++ after) ∧
    cell_type c = Some "code" ∧
    source c = Some [].
Proof.
  exists [cell0; cell1; cell2; cell3; cell4], cell5, [cell6; cell7].
  split; [reflexivity |].
  split; [| split; reflexivity].
  repeat (apply Forall_cons; split; [reflexivity |]).
  apply Forall_nil_2.
Qed.

(** C7: the sole code cell of the notebook has recorded no output: its
    outputs list is empty and its execution count is null. *)
Theorem code_cell_never_ran :
  ∃ c,
    code_cells notebook = [c] ∧
    outputs c = Some [] ∧
    execution_count c = Some JNull.
Proof.
  exists cell5. split; [| split; reflexivity].
  vm_compute. reflexivity.
Qed.

(** C3: the markdown cells hold exactly one code fragment, the Scala object
    SaveTweets, and its text names the four framework calls: the creation of
    the stream, the registration of the per-batch callback, the checkpoint
    directory and the termination of the process. *)
Theorem one_fragment_naming_framework_calls :
  ∃ f,
    code_fragments notebook = [f] ∧
    lang f = line "scala" ∧
    contains "object SaveTweets" (fragment_text f) = true ∧
    contains "TwitterUtils.createStream(" (fragment_text f) = true ∧
    contains "statuses.foreachRDD(" (fragment_text f) = true ∧
    contains "ssc.checkpoint(" (fragment_text f) = true ∧
    contains "System.exit(" (fragment_text f) = true.
Proof.
  eexists. split.
  - vm_compute. reflexivity.
  - repeat split; vm_compute; reflexivity.
Qed.

(** ** Long arithmetic *)

Lemma wrap_range (z : Z) : Long.MinValue ≤ Long.wrap z ≤ Long.MaxValue.
Proof.
  unfold Long.wrap, Long.MinValue, Long.MaxValue.
  pose proof (Z.mod_pos_bound (z + 2 ^ 63) (2 ^ 64)). lia.
Qed.

Lemma wrap_fits (z : Z) : Long.MinValue ≤ z ≤ Long.MaxValue → Long.wrap z = z.
Proof.
  unfold Long.wrap, Long.MinValue, Long.MaxValue. intros Hz.
  rewrite Z.mod_small; lia.
Qed.

(** A sum that passes [MaxValue] by at most 2^63 comes out negative. *)
Lemma wrap_overflow (z : Z) :
  Long.MaxValue < z ≤ Long.MaxValue + 2 ^ 63 → Long.wrap z = z - 2 ^ 64.
Proof.
  unfold Long.wrap, Long.MaxValue. intros Hz.
  replace (z + 2 ^ 63) with ((z - 2 ^ 63) + 1 * 2 ^ 64) by lia.
  rewrite Z.mod_add by lia. rewrite Z.mod_small; lia.
Qed.

(** ** The callback of SaveTweets *)

Section SaveTweets.

Context `{F : Framework}.

Implicit Types (rdd : RDD) (time : Time) (d : Driver SaveTweetsVars).

(** The callback, path by path. *)
Lemma callback_unfold rdd time d :
  callback rdd time d =
  match countJob rdd (world d) with
  | None => (Thrown, d)
  | Some n =>
      if bool_decide (n > 0) then
        match saveJob (cache (repartition 1 rdd)) (batchDir time) (world d) with
        | None => (Thrown, d)
        | Some w =>
            match countJob (cache (repartition 1 rdd)) w with
            | None => (Thrown, mkDriver (vars d) (stdout d) w)
            | Some c =>
                let total := Long.add (totalTweets (vars d)) c in
                let d' := mkDriver (mkVars total)
                            (stdout d ++ ["Tweet count: " +:+ Long.toString total]) w in
                if bool_decide (total > 1000) then (Exited 0, d') else (Normal (), d')
            end
        end
      else (Normal (), d)
  end.
Proof.
  unfold callback, batchDir, mbind, M_bind, count, saveAsTextFile, get, put, println,
    System_exit, mret, M_ret.
  destruct (countJob rdd (world d)) as [n|]; [| reflexivity].
  destruct (bool_decide (n > 0)); [| reflexivity].
  destruct (saveJob _ _ (world d)) as [w|]; [| reflexivity]. simpl.
  destruct (countJob _ w) as [c|]; [| reflexivity]. simpl.
  destruct (bool_decide (_ > 1000)); reflexivity.
Qed.

Lemma foreachRDD_app {V} (func : RDD → Time → M V unit) (s1 s2 : DStream) (dv : Driver V) :
  foreachRDD func (s1 ++ s2) dv =
  match foreachRDD func s1 dv with
  | (Normal _, dv1) => foreachRDD func s2 dv1
  | (Exited status, dv1) => (Exited status, dv1)
  | (Thrown, dv1) => (Thrown, dv1)
  end.
Proof.
  revert dv. induction s1 as [|[time rdd] s1 IH]; intros dv; [reflexivity |].
  simpl. unfold mbind, M_bind.
  destruct (func rdd time dv) as [[[]| |] dv1]; [apply IH | reflexivity | reflexivity].
Qed.

Lemma foreachRDD_exit_split {V} (func : RDD → Time → M V unit) (stream : DStream)
    (dv : Driver V) status dv' :
  foreachRDD func stream dv = (Exited status, dv') →
  ∃ before time rdd after dv1,
    stream = before ++ (time, rdd) :: after ∧
    foreachRDD func before dv = (Normal (), dv1) ∧
    func rdd time dv1 = (Exited status, dv').
Proof.
  revert dv. induction stream as [|[time rdd] rest IH]; intros dv Hrun; [discriminate Hrun |].
  simpl in Hrun. unfold mbind, M_bind in Hrun.
  destruct (func rdd time dv) as [[[]| s |] dv1] eqn:Hcall.
  - destruct (IH _ Hrun) as (before & time' & rdd' & after & dv2 & -> & Hbefore & Hlast).
    exists ((time, rdd) :: before), time', rdd', after, dv2.
    split; [reflexivity |]. split; [| exact Hlast].
    simpl. unfold mbind, M_bind. rewrite Hcall. exact Hbefore.
  - injection Hrun as -> ->.
    exists [], time, rdd, rest, dv. by repeat split.
  - discriminate Hrun.
Qed.

(** What one invocation does to [totalTweets], by the way it ends. *)
Lemma callback_cases rdd time d r d' :
  callback rdd time d = (r, d') →
  (r = Thrown ∧ totalTweets (vars d') = totalTweets (vars d)) ∨
  (r = Normal () ∧ d' = d ∧ ∃ n, countJob rdd (world d) = Some n ∧ n ≤ 0) ∨
  (∃ n c,
     countJob rdd (world d) = Some n ∧ 0 < n ∧
     countJob (cache (repartition 1 rdd)) (world d') = Some c ∧
     totalTweets (vars d') = Long.add (totalTweets (vars d)) c ∧
     (r = Exited 0 ∧ 1000 < totalTweets (vars d') ∨
      r = Normal () ∧ totalTweets (vars d') ≤ 1000)).
Proof.
  rewrite callback_unfold.
  destruct (countJob rdd (world d)) as [n|] eqn:Hn.
  2: { intros [= <- <-]. by left. }
  case_bool_decide as Hpos.
  2: { intros [= <- <-]. right; left. repeat split. exists n. split; [done | lia]. }
  destruct (saveJob _ _ (world d)) as [w|].
  2: { intros [= <- <-]. by left. }
  destruct (countJob _ w) as [c|] eqn:Hc.
  2: { intros [= <- <-]. by left. }
  cbv zeta. case_bool_decide as Hbig; intros [= <- <-]; right; right;
    exists n, c; simpl;
    (split; [done |]); (split; [lia |]); (split; [done |]); (split; [done |]).
  - left. split; [done | lia].
  - right. split; [done | lia].
Qed.

(** The count of the repartitioned batch is the size of the batch. *)
Lemma count_repartitioned `{!FrameworkLaws F} rdd (w : World) c :
  countJob (cache (repartition 1 rdd)) w = Some c →
  c = Z.of_nat (length (records rdd)) ∧ 0 ≤ c ≤ Long.MaxValue.
Proof.
  intros Hc. apply countJob_records in Hc as [Hc Hmax].
  rewrite records_cache, records_repartition in Hc. lia.
Qed.

(** While the callback keeps returning, [totalTweets] is a Long that has
    not passed 1000. *)
Lemma running_total_at_most_1000 (stream : DStream) d d' :
  Long.MinValue ≤ totalTweets (vars d) ≤ 1000 →
  foreachRDD callback stream d = (Normal (), d') →
  Long.MinValue ≤ totalTweets (vars d') ≤ 1000.
Proof.
  revert d. induction stream as [|[time rdd] rest IH]; intros d Hd Hrun.
  - injection Hrun as <-. exact Hd.
  - simpl in Hrun. unfold mbind, M_bind in Hrun.
    destruct (callback rdd time d) as [[[]| s |] d1] eqn:Hcall; try discriminate Hrun.
    apply (IH d1); [| exact Hrun].
    destruct (callback_cases _ _ _ _ _ Hcall)
      as [[? _] | [(_ & -> & _) | (n & c & _ & _ & _ & Htotal & [[? _] | [_ Hle]])]];
      try done.
    split; [| exact Hle]. rewrite Htotal. apply wrap_range.
Qed.

(** With batches that fit, the total is moreover never negative. *)
Lemma running_total_in_0_1000 `{!FrameworkLaws F} (stream : DStream) d d' :
  Forall (λ b, fits b.2) stream →
  0 ≤ totalTweets (vars d) ≤ 1000 →
  foreachRDD callback stream d = (Normal (), d') →
  0 ≤ totalTweets (vars d') ≤ 1000.
Proof.
  intros Hfits. revert d.
  induction Hfits as [|[time rdd] rest Hfit _ IH]; intros d Hd Hrun.
  - injection Hrun as <-. exact Hd.
  - simpl in Hrun. unfold mbind, M_bind in Hrun.
    destruct (callback rdd time d) as [[[]| s |] d1] eqn:Hcall; try discriminate Hrun.
    apply (IH d1); [| exact Hrun].
    destruct (callback_cases _ _ _ _ _ Hcall)
      as [[? _] | [(_ & -> & _) | (n & c & _ & _ & Hc & Htotal & [[? _] | [_ Hle]])]];
      try done.
    apply count_repartitioned in Hc as [-> Hc]. unfold fits in Hfit. simpl in Hfit.
    unfold Long.add in Htotal. rewrite wrap_fits in Htotal.
    + lia.
    + unfold Long.MinValue, Long.MaxValue in *. lia.
Qed.

(** C8: on a batch whose count is zero the callback does nothing: the
    driver is left as it was (no file saved, nothing printed, totalTweets
    unchanged) and the callback returns, without calling System.exit. *)
Theorem callback_empty_batch_noop rdd time d :
  countJob rdd (world d) = Some 0 →
  callback rdd time d = (Normal (), d).
Proof.
  intros Hcount. rewrite callback_unfold, Hcount.
  rewrite bool_decide_eq_false_2 by lia. reflexivity.
Qed.


(** C9: in every sequence of invocations of the callback, started with
    totalTweets at 0, over batches of fewer than 2^63 - 1000 records, an
    invocation never decreases totalTweets: it leaves it unchanged, or adds
    to it the count of the repartitioned batch, which is not negative; and
    totalTweets is never below its initial value 0. *)
Theorem totalTweets_never_decreases `{!FrameworkLaws F}
    (before : DStream) time rdd (w : World) d r d' :
  Forall (λ b, fits b.2) (before ++ [(time, rdd)]) →
  foreachRDD callback before (initial w) = (Normal (), d) →
  callback rdd time d = (r, d') →
  0 ≤ totalTweets (vars d) ≤ totalTweets (vars d') ∧
  (totalTweets (vars d') = totalTweets (vars d) ∨
   ∃ c, countJob (cache (repartition 1 rdd)) (world d') = Some c ∧ 0 ≤ c ∧
        totalTweets (vars d') = totalTweets (vars d) + c).
Proof.
  intros Hfits Hbefore Hcall.
  apply Forall_app in Hfits as [Hfits Hfit].
  rewrite Forall_singleton in Hfit. unfold fits in Hfit. simpl in Hfit.
  assert (0 ≤ totalTweets (vars d) ≤ 1000) as Hd.
  { apply (running_total_in_0_1000 before (initial w)); [done | simpl; lia | done]. }
  destruct (callback_cases _ _ _ _ _ Hcall)
    as [[_ Hsame] | [(_ & -> & _) | (n & c & _ & _ & Hc & Htotal & _)]].
  - split; [lia | by left].
  - split; [lia | by left].
  - destruct (count_repartitioned _ _ _ Hc) as [Hsize Hrange].
    unfold Long.add in Htotal. rewrite wrap_fits in Htotal.
    + split; [lia |]. right. exists c. repeat split; [done | lia | done].
    + unfold Long.MinValue, Long.MaxValue in *. lia.
Qed.

(** An invocation ends in System.exit exactly when it got through a
    non-empty batch and left [totalTweets] above 1000. *)
Lemma callback_exit_iff rdd time d r d' :
  callback rdd time d = (r, d') →
  r = Exited 0 ↔
  r ≠ Thrown ∧ (∃ n, countJob rdd (world d) = Some n ∧ 0 < n) ∧
  1000 < totalTweets (vars d').
Proof.
  intros Hcall.
  destruct (callback_cases _ _ _ _ _ Hcall)
    as [[-> _] | [(-> & -> & n & Hn & Hle) |
                  (n & c & Hn & Hpos & _ & _ & [[-> Hbig] | [-> Hsmall]])]].
  - split; [discriminate | by intros [? _]].
  - split; [discriminate |]. intros (_ & (n' & Hn' & Hpos) & _).
    rewrite Hn in Hn'. injection Hn' as <-. lia.
  - split; [| done]. intros _. split; [discriminate |]. split; [| done]. by exists n.
  - split; [discriminate |]. intros (_ & _ & Hbig). lia.
Qed.

Lemma callback_exit_status rdd time d status d' :
  callback rdd time d = (Exited status, d') → status = 0.
Proof.
  intros Hcall.
  destruct (callback_cases _ _ _ _ _ Hcall)
    as [[? _] | [(? & _) | (n & c & _ & _ & _ & _ & [[? _] | [? _]])]];
    congruence.
Qed.

(** The run that exits: the batch that ends it takes [totalTweets] from at
    most 1000 to more than 1000, by its whole size. *)
Lemma main_exit `{!FrameworkLaws F} (stream : DStream) (w : World) status d' :
  main stream w = (Exited status, d') →
  status = 0 ∧
  ∃ before time rdd after d,
    stream = before ++ (time, rdd) :: after ∧
    foreachRDD callback before (initial w) = (Normal (), d) ∧
    callback rdd time d = (Exited 0, d') ∧
    totalTweets (vars d) ≤ 1000 < totalTweets (vars d') ∧
    totalTweets (vars d') = totalTweets (vars d) + Z.of_nat (length (records rdd)).
Proof.
  unfold main. intros Hrun.
  destruct (foreachRDD_exit_split _ _ _ _ _ Hrun)
    as (before & time & rdd & after & d & -> & Hbefore & Hlast).
  pose proof (callback_exit_status _ _ _ _ _ Hlast) as ->.
  split; [reflexivity |]. exists before, time, rdd, after, d.
  split; [reflexivity |]. split; [exact Hbefore |]. split; [exact Hlast |].
  assert (Long.MinValue ≤ totalTweets (vars d) ≤ 1000) as Hd.
  { apply (running_total_at_most_1000 before (initial w)); [| exact Hbefore].
    unfold Long.MinValue. simpl. lia. }
  destruct (callback_cases _ _ _ _ _ Hlast)
    as [[? _] | [(? & _) | (n & c & _ & _ & Hc & Htotal & [[_ Hbig] | [? _]])]];
    try discriminate.
  apply count_repartitioned in Hc as [<- Hc].
  unfold Long.add in Htotal.
  destruct (decide (totalTweets (vars d) + c ≤ Long.MaxValue)) as [Hfit | Hover].
  - rewrite wrap_fits in Htotal by (unfold Long.MinValue, Long.MaxValue in *; lia). lia.
  - rewrite wrap_overflow in Htotal by (unfold Long.MinValue, Long.MaxValue in *; lia).
    unfold Long.MaxValue in *. lia.
Qed.

(** An exception of a framework job leaves the callback as it is raised:
    from the first count, from the save, from the second count. *)
Lemma callback_failures rdd time d :
  (countJob rdd (world d) = None → callback rdd time d = (Thrown, d)) ∧
  (∀ n, countJob rdd (world d) = Some n → 0 < n →
     saveJob (cache (repartition 1 rdd)) (batchDir time) (world d) = None →
     callback rdd time d = (Thrown, d)) ∧
  (∀ n w, countJob rdd (world d) = Some n → 0 < n →
     saveJob (cache (repartition 1 rdd)) (batchDir time) (world d) = Some w →
     countJob (cache (repartition 1 rdd)) w = None →
     callback rdd time d = (Thrown, mkDriver (vars d) (stdout d) w)).
Proof.
  split; [| split].
  - intros Hn. by rewrite callback_unfold, Hn.
  - intros n Hn Hpos Hsave. rewrite callback_unfold, Hn, Hsave.
    by rewrite bool_decide_eq_true_2 by lia.
  - intros n w Hn Hpos Hsave Hc. rewrite callback_unfold, Hn, Hsave, Hc.
    by rewrite bool_decide_eq_true_2 by lia.
Qed.

(** *** The output operations as the table documents them *)

Lemma foreachRDD_note (stream : DStream) (dv : Driver (list (Time * RDD))) :
  foreachRDD note stream dv =
  (Normal (), mkDriver (vars dv ++ stream) (stdout dv) (world dv)).
Proof.
  revert dv. induction stream as [|[time rdd] rest IH]; intros dv; simpl.
  - rewrite app_nil_r. by destruct dv.
  - unfold mbind, M_bind. simpl. rewrite IH. simpl.
    by rewrite <- app_assoc.
Qed.

Lemma foreachRDD_returning {V} (func : RDD → Time → M V unit) (stream : DStream)
    (dv : Driver V) :
  (∀ rdd time dv0, (func rdd time dv0).1 = Normal ()) →
  foreachRDD func stream dv =
  (Normal (), foldl (λ dv0 b, (func b.2 b.1 dv0).2) dv stream).
Proof.
  intros Hfunc. revert dv.
  induction stream as [|[time rdd] rest IH]; intros dv; simpl; [reflexivity |].
  unfold mbind, M_bind. specialize (Hfunc rdd time dv).
  destruct (func rdd time dv) as [r dv1]. simpl in *. subst r. apply IH.
Qed.

Lemma foreachRDD_snoc {V} (func : RDD → Time → M V unit) (before : DStream)
    time rdd (dv dv1 : Driver V) :
  foreachRDD func before dv = (Normal (), dv1) →
  foreachRDD func (before ++ [(time, rdd)]) dv = func rdd time dv1.
Proof.
  intros Hbefore. rewrite foreachRDD_app, Hbefore. simpl.
  unfold mbind, M_bind. by destruct (func rdd time dv1) as [[[]| |] dv2].
Qed.

Lemma printAll_stdout {V} (xs : list string) (dv : Driver V) :
  printAll xs dv = (Normal (), mkDriver (vars dv) (stdout dv ++ xs) (world dv)).
Proof.
  revert dv. induction xs as [|x xs IH]; intros dv; simpl.
  - rewrite app_nil_r. by destruct dv.
  - unfold mbind, M_bind. simpl. rewrite IH. simpl. by rewrite <- app_assoc.
Qed.

Lemma pprint_stdout `{!FrameworkLaws F} {V} (stream : DStream) (dv dv' : Driver V) :
  pprint stream dv = (Normal (), dv') →
  stdout dv' = stdout dv ++ concat ((λ b, take 10 (records b.2)) <$> stream) ∧
  vars dv' = vars dv ∧ world dv' = world dv.
Proof.
  unfold pprint. revert dv.
  induction stream as [|[time rdd] rest IH]; intros dv Hrun; simpl in *.
  - injection Hrun as <-. by rewrite app_nil_r.
  - unfold mbind, M_bind, takeRecords in Hrun.
    destruct (takeJob rdd 10 (world dv)) as [xs|] eqn:Htake; [| discriminate Hrun].
    apply takeJob_records in Htake as ->.
    rewrite printAll_stdout in Hrun.
    destruct (IH _ Hrun) as (-> & -> & ->). simpl.
    by rewrite <- app_assoc.
Qed.

(** The saves of a run of [saveAsTextFiles], one after the other. *)
Lemma saveAsTextFiles_saves {V} (prefix : string) (suffix : option string)
    (stream : DStream) (dv dv' : Driver V) :
  saveAsTextFiles prefix suffix stream dv = (Normal (), dv') →
  foldl (λ ow b, ow ≫= saveJob b.2 (rddToFileName prefix suffix b.1))
        (Some (world dv)) stream = Some (world dv') ∧
  vars dv' = vars dv ∧ stdout dv' = stdout dv.
Proof.
  unfold saveAsTextFiles. revert dv.
  induction stream as [|[time rdd] rest IH]; intros dv Hrun; simpl in *.
  - by injection Hrun as <-.
  - unfold mbind at 1, M_bind, saveAsTextFile in Hrun.
    destruct (saveJob rdd _ (world dv)) as [w|] eqn:Hsave; [| discriminate Hrun].
    destruct (IH _ Hrun) as (Hfold & -> & ->). simpl in *.
    by repeat split.
Qed.

(** The directory the callback saves a non-empty batch to. *)
Lemma callback_saves_batchDir rdd time d n w :
  countJob rdd (world d) = Some n → 0 < n →
  saveJob (cache (repartition 1 rdd)) (batchDir time) (world d) = Some w →
  world (callback rdd time d).2 = w.
Proof.
  intros Hn Hpos Hsave. rewrite callback_unfold, Hn, Hsave.
  rewrite bool_decide_eq_true_2 by lia.
  destruct (countJob _ w) as [c|]; [| reflexivity].
  cbv zeta. by case_bool_decide.
Qed.

End SaveTweets.

(** ** The framework on lists keeps the laws *)

Lemma concat_alter_push (x : string) (k : nat) (parts : list (list string)) :
  (k < length parts)%nat →
  concat (alter (ListFramework.push x) k parts) ≡ₚ x :: concat parts.
Proof.
  revert k. induction parts as [|part parts IH]; intros k Hk; simpl in Hk; [lia |].
  destruct k as [|k]; simpl.
  - unfold ListFramework.push. rewrite <- app_assoc. simpl.
    symmetry. apply Permutation_middle.
  - change (part ++ concat (alter (ListFramework.push x) k parts) ≡ₚ
            x :: part ++ concat parts).
    rewrite IH by lia. symmetry. apply Permutation_middle.
Qed.

Lemma deal_records (i : nat) (xs : list string) (parts : list (list string)) :
  (0 < length parts)%nat →
  concat (ListFramework.deal i xs parts) ≡ₚ concat parts ++ xs.
Proof.
  revert i parts. induction xs as [|x xs IH]; intros i parts Hparts; simpl.
  - by rewrite app_nil_r.
  - rewrite IH by (rewrite length_alter; exact Hparts).
    rewrite concat_alter_push by (apply Nat.mod_upper_bound; lia).
    apply Permutation_middle.
Qed.

Lemma concat_replicate_nil (n : nat) : concat (replicate n (@nil string)) = [].
Proof. induction n as [|n IH]; [reflexivity | exact IH]. Qed.

Lemma roundRobin_records (n : positive) (r : list (list string)) :
  concat (ListFramework.roundRobin n r) ≡ₚ concat r.
Proof.
  unfold ListFramework.roundRobin.
  rewrite deal_records by (rewrite length_replicate; lia).
  by rewrite concat_replicate_nil.
Qed.

Global Instance list_framework_laws : FrameworkLaws ListFramework.framework.
Proof.
  split; simpl.
  - apply roundRobin_records.
  - reflexivity.
  - intros r w n. unfold ListFramework.countList. cbv zeta.
    case_bool_decide as Hmax; [| discriminate]. intros [= <-]. by split.
  - intros r k w xs. unfold ListFramework.takeList. by intros [= <-].
Qed.

Lemma append_empty_r (a : string) : a +:+ "" = a.
Proof. induction a as [|x a IH]; [reflexivity |]. by rewrite append_cons, IH. Qed.

Lemma saveDir_Some (r : list (list string)) (path : string)
    (w w' : gmap string (list (list string))) :
  ListFramework.saveDir r path w = Some w' →
  w !! path = None ∧ w' = <[path := r]> w.
Proof.
  unfold ListFramework.saveDir. destruct (w !! path); [discriminate |].
  by intros [= <-].
Qed.

Lemma saves_from_None (name : Time → string) (stream : list (Time * list (list string))) :
  foldl (λ ow b, ow ≫= ListFramework.saveDir b.2 (name b.1)) None stream = None.
Proof. induction stream as [|b rest IH]; [reflexivity | exact IH]. Qed.

(** On the list framework, a run of saves that succeeds only adds
    directories, one for each batch, holding that batch. *)
Lemma saves_kept (name : Time → string) (stream : list (Time * list (list string)))
    (w w' : gmap string (list (list string))) :
  foldl (λ ow b, ow ≫= ListFramework.saveDir b.2 (name b.1)) (Some w) stream = Some w' →
  (∀ path x, w !! path = Some x → w' !! path = Some x) ∧
  (∀ time rdd, (time, rdd) ∈ stream → w' !! name time = Some rdd).
Proof.
  revert w. induction stream as [|[time rdd] rest IH]; intros w Hrun; simpl in Hrun.
  - injection Hrun as <-. split; [done |]. intros time rdd Hin. by apply elem_of_nil in Hin.
  - destruct (ListFramework.saveDir rdd (name time) w) as [w1|] eqn:Hsave.
    2: { by rewrite saves_from_None in Hrun. }
    apply saveDir_Some in Hsave as [Hfresh ->].
    destruct (IH _ Hrun) as [Hkept Hsaved]. split.
    + intros path x Hpath. apply Hkept. rewrite lookup_insert_ne; [done |].
      intros <-. congruence.
    + intros time' rdd' Hin. apply elem_of_cons in Hin as [[= -> ->] | Hin].
      * apply Hkept. apply lookup_insert_eq.
      * by apply Hsaved.
Qed.

(** ** Runs on the list framework *)

Lemma callback_empty_batch_noop_witness :
  countJob (Framework := ListFramework.framework) [] ∅ = Some 0 ∧
  callback (F := ListFramework.framework) [] (mkTime 1000) (initial ∅) =
    (Normal (), initial ∅).
Proof.
  split; [reflexivity |].
  apply (callback_empty_batch_noop (F := ListFramework.framework)). reflexivity.
Defined.

Lemma totalTweets_never_decreases_witness :
  let before : DStream (F := ListFramework.framework) :=
    [(mkTime 1000, ListFramework.tweets 2 3); (mkTime 2000, [])] in
  let rdd : RDD (Framework := ListFramework.framework) := ListFramework.tweets 1 4 in
  let d := (foreachRDD callback before (initial ∅)).2 in
  let d' := (callback rdd (mkTime 3000) d).2 in
  totalTweets (vars d) = 6 ∧
  totalTweets (vars d') = 10 ∧
  0 ≤ totalTweets (vars d) ≤ totalTweets (vars d') ∧
  (totalTweets (vars d') = totalTweets (vars d) ∨
   ∃ c, countJob (cache (repartition 1 rdd)) (world d') = Some c ∧ 0 ≤ c ∧
        totalTweets (vars d') = totalTweets (vars d) + c).
Proof.
  intros before rdd d d'.
  split; [vm_compute; reflexivity |]. split; [vm_compute; reflexivity |].
  apply (totalTweets_never_decreases before (mkTime 3000) rdd ∅ d
           (callback rdd (mkTime 3000) d).1 d').
  - repeat (apply Forall_cons; split; [vm_compute; discriminate |]).
    apply Forall_nil_2.
  - reflexivity.
  - reflexivity.
Defined.

(** C10: the callback calls System.exit, with status 0, exactly when it got
    through a non-empty batch and the total it then holds is strictly above
    1000; a total of exactly 1000 does not end the program.  So the run that
    exits ends with more than 1000 tweets, at most the whole last batch above
    the threshold, and a run on the list framework attains that. *)
Theorem exit_exactly_when_total_exceeds_1000 :
  (∀ (F : Framework) (rdd : RDD) time d r d',
     callback rdd time d = (r, d') →
     (r = Exited 0 ↔
      r ≠ Thrown ∧ (∃ n, countJob rdd (world d) = Some n ∧ 0 < n) ∧
      1000 < totalTweets (vars d')) ∧
     (∀ status, r = Exited status → status = 0) ∧
     (totalTweets (vars d') = 1000 → ∀ status, r ≠ Exited status)) ∧
  (∀ (F : Framework), FrameworkLaws F →
     ∀ (stream : DStream) (w : World) status d',
       main stream w = (Exited status, d') →
       status = 0 ∧
       ∃ before time rdd after d,
         stream = before ++ (time, rdd) :: after ∧
         foreachRDD callback before (initial w) = (Normal (), d) ∧
         callback rdd time d = (Exited 0, d') ∧
         totalTweets (vars d) ≤ 1000 < totalTweets (vars d') ∧
         totalTweets (vars d') =
           totalTweets (vars d) + Z.of_nat (length (records rdd))) ∧
  (∃ (stream : DStream (F := ListFramework.framework)) time rdd d',
     last stream = Some (time, rdd) ∧
     main stream ∅ = (Exited 0, d') ∧
     totalTweets (vars d') - 1000 = Z.of_nat (length (records rdd))).
Proof.
  split; [| split].
  - intros F rdd time d r d' Hcall. split; [| split].
    + apply (callback_exit_iff _ _ _ _ _ Hcall).
    + intros status ->. by apply (callback_exit_status _ _ _ _ _ Hcall).
    + intros H1000 status ->.
      pose proof (callback_exit_status _ _ _ _ _ Hcall) as ->.
      destruct (callback_exit_iff _ _ _ _ _ Hcall) as [Hiff _].
      destruct (Hiff eq_refl) as (_ & _ & Hbig). lia.
  - intros F Hlaws stream w status d'. apply main_exit.
  - pose (stream := [(mkTime 1000, ListFramework.tweets 4 250);
                     (mkTime 2000, ListFramework.tweets 1 7)]
                    : DStream (F := ListFramework.framework)).
    exists stream, (mkTime 2000), (ListFramework.tweets 1 7), (main stream ∅).2.
    split; [reflexivity |].
    assert ((main stream ∅).1 = Exited 0) as Hexit by (vm_compute; reflexivity).
    split.
    + destruct (main stream ∅) as [r d']. simpl in *. by subst r.
    + vm_compute. reflexivity.
Qed.

Lemma exit_exactly_when_total_exceeds_1000_witness :
  let stream : DStream (F := ListFramework.framework) :=
    [(mkTime 1000, ListFramework.tweets 2 500);
     (mkTime 2000, ListFramework.tweets 1 1);
     (mkTime 3000, ListFramework.tweets 1 5)] in
  (main stream ∅).1 = Exited 0 ∧
  ∃ before time rdd after d,
    stream = before ++ (time, rdd) :: after ∧
    foreachRDD callback before (initial ∅) = (Normal (), d) ∧
    callback rdd time d = (Exited 0, (main stream ∅).2) ∧
    totalTweets (vars d) ≤ 1000 < totalTweets (vars (main stream ∅).2) ∧
    totalTweets (vars (main stream ∅).2) =
      totalTweets (vars d) + Z.of_nat (length (records rdd)).
Proof.
  intros stream.
  assert ((main stream ∅).1 = Exited 0) as Hexit by (vm_compute; reflexivity).
  split; [exact Hexit |].
  apply (proj1 (proj2 exit_exactly_when_total_exceeds_1000)
           ListFramework.framework list_framework_laws stream ∅ 0).
  destruct (main stream ∅) as [r d']. simpl in *. by subst r.
Defined.

(** C6: no cell of the notebook contains a construct that handles or raises
    an error, the code cell is empty, and the callback of the example guards
    none of its framework calls: an exception of the first count, of the
    save or of the second count leaves the callback as it is, with the
    counter not updated. *)
Theorem no_error_handling :
  Forall (λ c, Forall (λ word, contains word (cell_text c) = false)
                      error_handling_words) (cells notebook) ∧
  Forall (λ c, source c = Some []) (code_cells notebook) ∧
  (∀ (F : Framework) (rdd : RDD) time d,
     (countJob rdd (world d) = None → callback rdd time d = (Thrown, d)) ∧
     (∀ n, countJob rdd (world d) = Some n → 0 < n →
        saveJob (cache (repartition 1 rdd)) (batchDir time) (world d) = None →
        callback rdd time d = (Thrown, d)) ∧
     (∀ n w, countJob rdd (world d) = Some n → 0 < n →
        saveJob (cache (repartition 1 rdd)) (batchDir time) (world d) = Some w →
        countJob (cache (repartition 1 rdd)) w = None →
        callback rdd time d = (Thrown, mkDriver (vars d) (stdout d) w))).
Proof.
  split; [| split].
  - repeat (apply Forall_cons; split;
            [repeat (apply Forall_cons; split; [vm_compute; reflexivity |]);
             apply Forall_nil_2 |]).
    apply Forall_nil_2.
  - change (code_cells notebook) with [cell5].
    apply Forall_cons. split; [reflexivity | apply Forall_nil_2].
  - intros F rdd time d. apply callback_failures.
Qed.

Lemma no_error_handling_witness :
  let rdd : RDD (Framework := ListFramework.framework) := ListFramework.tweets 1 2 in
  let d := mkDriver (mkVars 5) [] {[ "Tweets_1000" := [] ]} in
  countJob rdd (world d) = Some 2 ∧
  saveJob (cache (repartition 1 rdd)) (batchDir (mkTime 1000)) (world d) = None ∧
  callback rdd (mkTime 1000) d = (Thrown, d).
Proof.
  intros rdd d.
  assert (countJob rdd (world d) = Some 2) as Hcount by reflexivity.
  assert (saveJob (cache (repartition 1 rdd)) (batchDir (mkTime 1000)) (world d) = None)
    as Hsave by reflexivity.
  split; [exact Hcount |]. split; [exact Hsave |].
  destruct (proj2 (proj2 no_error_handling) ListFramework.framework rdd (mkTime 1000) d)
    as (_ & Hsaving & _).
  apply (Hsaving 2 Hcount); [lia | exact Hsave].
Defined.

(** C5: foreachRDD(func) applies func to each RDD generated from the stream,
    once per batch and in order, as a computation of the driver: a function
    that notes its arguments ends with the batches of the stream, a function
    that returns leaves the driver as the calls on the successive batches
    leave it, and the call for the next batch starts from the driver the
    earlier calls left.  The table of the notebook says so. *)
Theorem foreachRDD_applies_func_to_each_batch :
  (∀ (F : Framework) (stream : DStream) (dv : Driver (list (Time * RDD))),
     foreachRDD note stream dv =
     (Normal (), mkDriver (vars dv ++ stream) (stdout dv) (world dv))) ∧
  (∀ (F : Framework) V (func : RDD → Time → M V unit) (stream : DStream) (dv : Driver V),
     (∀ rdd time dv0, (func rdd time dv0).1 = Normal ()) →
     foreachRDD func stream dv =
     (Normal (), foldl (λ dv0 b, (func b.2 b.1 dv0).2) dv stream)) ∧
  (∀ (F : Framework) V (func : RDD → Time → M V unit) (before : DStream) time rdd
     (dv dv1 : Driver V),
     foreachRDD func before dv = (Normal (), dv1) →
     foreachRDD func (before ++ [(time, rdd)]) dv = func rdd time dv1) ∧
  contains "applies a function, func, to each RDD generated from the stream"
    (cell_text cell1) = true ∧
  contains "the function func is executed in the driver process running the streaming application"
    (cell_text cell1) = true.
Proof.
  split; [| split; [| split; [| split]]].
  - intros F. apply foreachRDD_note.
  - intros F V. apply foreachRDD_returning.
  - intros F V. apply foreachRDD_snoc.
  - vm_compute. reflexivity.
  - vm_compute. reflexivity.
Qed.

Lemma foreachRDD_applies_func_to_each_batch_witness :
  let before : DStream (F := ListFramework.framework) :=
    [(mkTime 1000, ListFramework.tweets 1 2); (mkTime 2000, ListFramework.tweets 3 1)] in
  let rdd : RDD (Framework := ListFramework.framework) := ListFramework.tweets 2 2 in
  let d1 := (foreachRDD callback before (initial ∅)).2 in
  foreachRDD callback before (initial ∅) = (Normal (), d1) ∧
  totalTweets (vars d1) = 5 ∧
  foreachRDD callback (before ++ [(mkTime 3000, rdd)]) (initial ∅) =
    callback rdd (mkTime 3000) d1.
Proof.
  intros before rdd d1.
  assert (foreachRDD callback before (initial ∅) = (Normal (), d1)) as Hbefore
    by reflexivity.
  split; [exact Hbefore |]. split; [vm_compute; reflexivity |].
  destruct foreachRDD_applies_func_to_each_batch as (_ & _ & Hnext & _).
  apply (Hnext ListFramework.framework SaveTweetsVars callback before (mkTime 3000) rdd
           (initial ∅) d1 Hbefore).
Defined.

(** C4: pprint prints, for every batch of the stream in turn, the first ten
    elements of the batch, on the standard output of the driver, and changes
    nothing else of it.  The table of the notebook says so. *)
Theorem pprint_prints_first_ten (F : Framework) `{!FrameworkLaws F} (V : Type)
    (stream : DStream) (dv dv' : Driver V) :
  pprint stream dv = (Normal (), dv') →
  stdout dv' = stdout dv ++ concat ((λ b, take 10 (records b.2)) <$> stream) ∧
  vars dv' = vars dv ∧ world dv' = world dv ∧
  contains "Prints the first ten elements of every batch of data in a DStream on the driver node running the streaming application."
    (cell_text cell1) = true.
Proof.
  intros Hrun. destruct (pprint_stdout _ _ _ Hrun) as (Hout & Hvars & Hworld).
  split; [exact Hout |]. split; [exact Hvars |]. split; [exact Hworld |].
  vm_compute. reflexivity.
Qed.

Lemma pprint_prints_first_ten_witness :
  let stream : DStream (F := ListFramework.framework) :=
    [(mkTime 1000, [["a"; "b"]; ["c"]]); (mkTime 2000, ListFramework.tweets 3 4)] in
  let dv := mkDriver () [] ∅ in
  pprint stream dv = (Normal (), (pprint stream dv).2) ∧
  stdout (pprint stream dv).2 = ["a"; "b"; "c"] ++ replicate 10 "tweet".
Proof.
  intros stream dv.
  assert (pprint stream dv = (Normal (), (pprint stream dv).2)) as Hrun by reflexivity.
  split; [exact Hrun |].
  destruct (pprint_prints_first_ten ListFramework.framework unit stream dv _ Hrun)
    as (-> & _).
  reflexivity.
Defined.

(** C2: saveAsTextFiles(prefix, [suffix]) saves, at every batch interval, the
    batch under the name prefix-TIME_IN_MS[.suffix], the time being the batch
    time in milliseconds: the saves of a run are those of the batches under
    these names, in order, and on the list framework every batch is then
    found under its name.  The table of the notebook gives this form; the
    callback of the example saves a batch under Tweets_ followed by the batch
    time in milliseconds. *)
Theorem saveAsTextFiles_names_batches_by_time :
  (∀ (F : Framework) prefix time,
     rddToFileName prefix None time =
     prefix +:+ "-" +:+ Long.toString (milliseconds time)) ∧
  (∀ (F : Framework) prefix ext time,
     rddToFileName prefix (Some ext) time =
     prefix +:+ "-" +:+ Long.toString (milliseconds time) +:+ "." +:+ ext) ∧
  (∀ (F : Framework) V prefix suffix (stream : DStream) (dv dv' : Driver V),
     saveAsTextFiles prefix suffix stream dv = (Normal (), dv') →
     foldl (λ ow b, ow ≫= saveJob b.2 (rddToFileName prefix suffix b.1))
           (Some (world dv)) stream = Some (world dv') ∧
     vars dv' = vars dv ∧ stdout dv' = stdout dv) ∧
  (∀ V prefix suffix (stream : DStream (F := ListFramework.framework)) (dv dv' : Driver V),
     saveAsTextFiles prefix suffix stream dv = (Normal (), dv') →
     ∀ time rdd, (time, rdd) ∈ stream →
       (world dv' : gmap string (list (list string))) !!
         rddToFileName prefix suffix time = Some rdd) ∧
  (∀ (F : Framework) (rdd : RDD) time d n w,
     countJob rdd (world d) = Some n → 0 < n →
     saveJob (cache (repartition 1 rdd))
             ("Tweets_" +:+ Long.toString (milliseconds time)) (world d) = Some w →
     world (callback rdd time d).2 = w) ∧
  contains ("**saveAsTextFiles**(prefix, [suffix])") (cell_text cell1) = true ∧
  contains (dq +:+ "prefix-TIME_IN_MS[.suffix]" +:+ dq) (cell_text cell1) = true.
Proof.
  split; [| split; [| split; [| split; [| split; [| split]]]]].
  - intros F prefix time. unfold rddToFileName. by rewrite append_empty_r.
  - reflexivity.
  - intros F V. apply saveAsTextFiles_saves.
  - intros V prefix suffix stream dv dv' Hrun time rdd Hin.
    apply saveAsTextFiles_saves in Hrun as (Hsaves & _ & _).
    apply (saves_kept (rddToFileName prefix suffix)) in Hsaves as [_ Hsaved].
    by apply Hsaved.
  - intros F rdd time d. apply callback_saves_batchDir.
  - vm_compute. reflexivity.
  - vm_compute. reflexivity.
Qed.

Lemma saveAsTextFiles_names_batches_by_time_witness :
  let stream : DStream (F := ListFramework.framework) :=
    [(mkTime 1000, [["a"; "b"]; ["c"]]); (mkTime 2000, [["d"]])] in
  let dv := mkDriver () [] ∅ in
  let dv' := (saveAsTextFiles "Tweets" (Some "txt") stream dv).2 in
  saveAsTextFiles "Tweets" (Some "txt") stream dv = (Normal (), dv') ∧
  (world dv' : gmap string (list (list string))) !! "Tweets-1000.txt" =
    Some [["a"; "b"]; ["c"]] ∧
  (world dv' : gmap string (list (list string))) !! "Tweets-2000.txt" = Some [["d"]].
Proof.
  intros stream dv dv'.
  assert (saveAsTextFiles "Tweets" (Some "txt") stream dv = (Normal (), dv')) as Hrun
    by reflexivity.
  destruct saveAsTextFiles_names_batches_by_time as (_ & _ & _ & Hsaved & _).
  split; [exact Hrun |]. split.
  - apply (Hsaved unit "Tweets" (Some "txt") stream dv dv' Hrun (mkTime 1000)).
    apply elem_of_cons. by left.
  - apply (Hsaved unit "Tweets" (Some "txt") stream dv dv' Hrun (mkTime 2000)).
    apply elem_of_cons. right. apply elem_of_cons. by left.
Defined.

(** ** More on the run of SaveTweets *)

Section Runs.

Context `{F : Framework} `{!FrameworkLaws F}.

Implicit Types (rdd : RDD) (time : Time) (d : Driver SaveTweetsVars).

(** One invocation that returns, on a batch that fits. *)
Lemma callback_returns rdd time d d1 :
  fits rdd →
  0 ≤ totalTweets (vars d) ≤ 1000 →
  callback rdd time d = (Normal (), d1) →
  if bool_decide (0 < size rdd) then
    totalTweets (vars d1) = totalTweets (vars d) + size rdd ∧
    stdout d1 = stdout d ++
      ["Tweet count: " +:+ Long.toString (totalTweets (vars d) + size rdd)] ∧
    saveJob (cache (repartition 1 rdd)) (batchDir time) (world d) = Some (world d1)
  else d1 = d.
Proof.
  intros Hfit Hd. unfold fits in Hfit. rewrite callback_unfold.
  destruct (countJob rdd (world d)) as [n|] eqn:Hn; [| discriminate].
  apply countJob_records in Hn as [-> _]. fold (size rdd).
  case_bool_decide as Hpos.
  - rewrite bool_decide_eq_true_2 by lia.
    destruct (saveJob _ _ (world d)) as [w|]; [| discriminate].
    destruct (countJob _ w) as [c|] eqn:Hc; [| discriminate].
    apply count_repartitioned in Hc as [-> _]. fold (size rdd).
    unfold Long.add.
    rewrite wrap_fits by (unfold size, Long.MinValue, Long.MaxValue in *; lia).
    cbv zeta. case_bool_decide; [discriminate |]. by intros [= <-].
  - rewrite bool_decide_eq_false_2 by lia. by intros [= <-].
Qed.

(** A run that returns, from a total between 0 and 1000. *)
Lemma run_returns (stream : DStream) d d' :
  Forall (λ b, fits b.2) stream →
  0 ≤ totalTweets (vars d) ≤ 1000 →
  foreachRDD callback stream d = (Normal (), d') →
  totalTweets (vars d') = totalTweets (vars d) + collected stream ∧
  stdout d' = stdout d ++ reports (totalTweets (vars d)) stream ∧
  savedBy stream (world d) = Some (world d').
Proof.
  intros Hfits. revert d.
  induction Hfits as [|[time rdd] rest Hfit Hfits IH]; intros d Hd Hrun.
  - injection Hrun as <-. simpl. rewrite app_nil_r. split; [lia | done].
  - simpl in Hrun. unfold mbind, M_bind in Hrun.
    destruct (callback rdd time d) as [[[]| s |] d1] eqn:Hcall; try discriminate Hrun.
    assert (0 ≤ totalTweets (vars d1) ≤ 1000) as Hd1.
    { apply (running_total_in_0_1000 [(time, rdd)] d); [| done |].
      - by apply Forall_singleton.
      - simpl. unfold mbind, M_bind. by rewrite Hcall. }
    destruct (IH d1 Hd1 Hrun) as (Htotal & Hout & Hsaved).
    pose proof (callback_returns _ _ _ _ Hfit Hd Hcall) as Hstep.
    unfold savedBy in *. simpl in *. case_bool_decide as Hpos.
    + destruct Hstep as (Ht1 & Hout1 & Hsave1).
      rewrite Hsave1, Hsaved, Htotal, Hout, Hout1, Ht1, <- app_assoc.
      split; [lia | done].
    + subst d1. split; [| done]. unfold size in *. lia.
Qed.


(** X1: when the run of the callback over a stream of batches that fit
    returns, totalTweets is the number of records of all the batches, and
    that number is at most 1000. *)
Theorem totalTweets_counts_all_batches (stream : DStream) (w : World) d' :
  Forall (λ b, fits b.2) stream →
  main stream w = (Normal (), d') →
  totalTweets (vars d') = collected stream ∧ collected stream ≤ 1000.
Proof.
  unfold main. intros Hfits Hrun.
  destruct (run_returns stream (initial w) d' Hfits) as (Htotal & _); [simpl; lia | done |].
  change (totalTweets (vars (initial w))) with 0 in Htotal.
  split; [lia |].
  assert (0 ≤ totalTweets (vars d') ≤ 1000) as Hle.
  { apply (running_total_in_0_1000 stream (initial w) d' Hfits); [simpl; lia | done]. }
  lia.
Qed.


(** X3: a run that returns has printed one line for each non-empty batch,
    in order, each giving the number of tweets received so far. *)
Theorem run_prints_running_totals (stream : DStream) (w : World) d' :
  Forall (λ b, fits b.2) stream →
  main stream w = (Normal (), d') →
  stdout d' = reports 0 stream.
Proof.
  unfold main. intros Hfits Hrun.
  destruct (run_returns stream (initial w) d' Hfits) as (_ & Hout & _);
    [simpl; lia | done | exact Hout].
Qed.

(** X4: a run that returns has saved each non-empty batch once, as one
    repartitioned and cached RDD, under its directory, in the order of the
    stream, and no empty batch. *)
Theorem run_saves_non_empty_batches (stream : DStream) (w : World) d' :
  Forall (λ b, fits b.2) stream →
  main stream w = (Normal (), d') →
  savedBy stream w = Some (world d').
Proof.
  unfold main. intros Hfits Hrun.
  destruct (run_returns stream (initial w) d' Hfits) as (_ & _ & Hsaved);
    [simpl; lia | done | exact Hsaved].
Qed.


End Runs.

Lemma toString_inj (a b : Z) : Long.toString a = Long.toString b → a = b.
Proof.
  unfold Long.toString. intros Heq.
  apply DecimalZ.to_int_inj.
  assert (∀ z, Z.to_int z ≠ Decimal.Pos Decimal.Nil ∧ Z.to_int z ≠ Decimal.Neg Decimal.Nil)
    as Hnonnil.
  { intros [|p|p]; simpl; split; try discriminate;
      intros [= Hp]; by apply DecimalPos.Unsigned.to_uint_nonnil in Hp. }
  apply (f_equal NilZero.int_of_string) in Heq.
  rewrite !NilZero.isi in Heq by apply Hnonnil.
  congruence.
Qed.

(** X6: batches of different times are saved to different directories. *)
Theorem batchDir_inj (t1 t2 : Time) : t1 ≠ t2 → batchDir t1 ≠ batchDir t2.
Proof.
  unfold batchDir. intros Hne Heq. injection Heq as Heq.
  apply toString_inj in Heq. destruct t1, t2. simpl in Heq. by subst.
Qed.

(** X7: when the run exits, the last line it printed is the final number of
    tweets, which is above 1000. *)
Theorem exit_prints_final_total `{F : Framework} (stream : DStream) (w : World) status d' :
  main stream w = (Exited status, d') →
  last (stdout d') = Some ("Tweet count: " +:+ Long.toString (totalTweets (vars d'))) ∧
  1000 < totalTweets (vars d').
Proof.
  unfold main. intros Hrun.
  destruct (foreachRDD_exit_split _ _ _ _ _ Hrun)
    as (before & time & rdd & after & d & _ & _ & Hlast).
  rewrite callback_unfold in Hlast.
  destruct (countJob rdd (world d)) as [n|]; [| discriminate].
  case_bool_decide; [| discriminate].
  destruct (saveJob _ _ (world d)) as [w1|]; [| discriminate].
  destruct (countJob _ w1) as [c|]; [| discriminate].
  cbv zeta in Hlast. case_bool_decide as Hbig; [| discriminate].
  injection Hlast as _ <-. simpl. rewrite last_snoc. split; [reflexivity | lia].
Qed.

(** ** Runs on the list framework, continued *)

Lemma totalTweets_counts_all_batches_witness :
  let stream : DStream (F := ListFramework.framework) :=
    [(mkTime 1000, ListFramework.tweets 2 3); (mkTime 2000, []);
     (mkTime 3000, ListFramework.tweets 1 4)] in
  Forall (λ b, fits b.2) stream ∧
  (main stream ∅).1 = Normal () ∧
  totalTweets (vars (main stream ∅).2) = collected stream ∧
  collected stream = 10.
Proof.
  intros stream.
  assert (Forall (λ b, fits b.2) stream) as Hfits.
  { repeat (apply Forall_cons; split; [vm_compute; discriminate |]). apply Forall_nil_2. }
  assert ((main stream ∅).1 = Normal ()) as Hreturns by (vm_compute; reflexivity).
  split; [exact Hfits |]. split; [exact Hreturns |]. split; [| vm_compute; reflexivity].
  apply (totalTweets_counts_all_batches stream ∅ _ Hfits).
  destruct (main stream ∅) as [r d']. simpl in *. by subst r.
Defined.


Lemma run_prints_running_totals_witness :
  let stream : DStream (F := ListFramework.framework) :=
    [(mkTime 1000, ListFramework.tweets 2 3); (mkTime 2000, []);
     (mkTime 3000, ListFramework.tweets 1 4)] in
  Forall (λ b, fits b.2) stream ∧
  (main stream ∅).1 = Normal () ∧
  stdout (main stream ∅).2 = reports 0 stream ∧
  reports 0 stream = ["Tweet count: 6"; "Tweet count: 10"].
Proof.
  intros stream.
  assert (Forall (λ b, fits b.2) stream) as Hfits.
  { repeat (apply Forall_cons; split; [vm_compute; discriminate |]). apply Forall_nil_2. }
  assert ((main stream ∅).1 = Normal ()) as Hreturns by (vm_compute; reflexivity).
  split; [exact Hfits |]. split; [exact Hreturns |]. split; [| vm_compute; reflexivity].
  apply (run_prints_running_totals stream ∅ _ Hfits).
  destruct (main stream ∅) as [r d']. simpl in *. by subst r.
Defined.

Lemma run_saves_non_empty_batches_witness :
  let stream : DStream (F := ListFramework.framework) :=
    [(mkTime 1000, [["a"]; ["b"]]); (mkTime 2000, []); (mkTime 3000, [["c"]])] in
  Forall (λ b, fits b.2) stream ∧
  (main stream ∅).1 = Normal () ∧
  savedBy stream ∅ = Some (world (main stream ∅).2) ∧
  savedBy stream ∅ = Some {[ "Tweets_1000" := [["a"; "b"]]; "Tweets_3000" := [["c"]] ]}.
Proof.
  intros stream.
  assert (Forall (λ b, fits b.2) stream) as Hfits.
  { repeat (apply Forall_cons; split; [vm_compute; discriminate |]). apply Forall_nil_2. }
  assert ((main stream ∅).1 = Normal ()) as Hreturns by (vm_compute; reflexivity).
  split; [exact Hfits |]. split; [exact Hreturns |]. split; [| reflexivity].
  apply (run_saves_non_empty_batches stream ∅ _ Hfits).
  destruct (main stream ∅) as [r d']. simpl in *. by subst r.
Defined.


Lemma batchDir_inj_witness :
  mkTime 1000 ≠ mkTime 2000 ∧ batchDir (mkTime 1000) ≠ batchDir (mkTime 2000).
Proof.
  assert (mkTime 1000 ≠ mkTime 2000) as Hne by discriminate.
  split; [exact Hne |]. exact (batchDir_inj _ _ Hne).
Defined.

Lemma exit_prints_final_total_witness :
  let stream : DStream (F := ListFramework.framework) :=
    [(mkTime 1000, ListFramework.tweets 2 500); (mkTime 2000, ListFramework.tweets 1 7)] in
  (main stream ∅).1 = Exited 0 ∧
  last (stdout (main stream ∅).2) = Some "Tweet count: 1007".
Proof.
  intros stream.
  assert ((main stream ∅).1 = Exited 0) as Hexit by (vm_compute; reflexivity).
  split; [exact Hexit |].
  assert (Long.toString (totalTweets (vars (main stream ∅).2)) = "1007") as <-
    by (vm_compute; reflexivity).
  apply (exit_prints_final_total stream ∅ 0).
  destruct (main stream ∅) as [r d']. simpl in *. by subst r.
Defined.
